(** * chainercv.visualizations.vis_label

    A shallow embedding of [vis_label] (src/chainercv/visualizations/vis_label.py)
    and of the numpy / matplotlib primitives it calls, followed by the
    properties of the natural-language specification.

    Conventions of the embedding.
    - Integers are unbounded ([Z]); the fixed width of numpy integer dtypes
      is not modelled.
    - A float is an exact rational or one of the three non-finite values
      [PosInf], [NegInf], [NaN]: rounding of binary64 is not modelled.
    - A Python exception ends the call; what was written to the world
      before it stays written. *)

From Stdlib Require Import ZArith QArith Qround Lia Bool.
From stdpp Require Import base list strings pretty.

Local Open Scope Z_scope.

(** ** Numbers *)

(** An integer is either a Python [int] (as [len] and [enumerate] produce)
    or a numpy integer scalar (as [ndarray.max] produces).  The two differ
    in what a division by zero does. *)
Inductive integer : Type :=
  | PyInt (z : Z)
  | NpInt (z : Z).

Definition int_value (n : integer) : Z :=
  match n with PyInt z | NpInt z => z end.

(** [n - 1] with a Python literal on the right keeps the kind of [n]. *)
Definition int_pred (n : integer) : integer :=
  match n with
  | PyInt z => PyInt (z - 1)
  | NpInt z => NpInt (z - 1)
  end.

Inductive float64 : Type :=
  | Fin (q : Q)
  | PosInf
  | NegInf
  | NaN.

Definition is_finite (x : float64) : bool :=
  match x with Fin _ => true | _ => false end.

(** numpy's [true_divide] on integers: a zero divisor gives a non-finite
    value (and a RuntimeWarning), never an exception. *)
Definition np_true_divide (a b : Z) : float64 :=
  if b =? 0 then
    if a =? 0 then NaN else if 0 <? a then PosInf else NegInf
  else Fin (inject_Z a / inject_Z b)%Q.

(** ** Exceptions and the world *)

Inductive exn : Type :=
  | ValueError_colors_size      (* 'The size of colors is not same as the number of classes' *)
  | ValueError_label_exceeds    (* 'The values of label exceed the number of classes' *)
  | ValueError_zero_size_max    (* numpy: maximum of a zero-size array *)
  | ValueError_shape_mismatch   (* numpy: value cannot be broadcast to the indexing result *)
  | ZeroDivisionError.

Inductive result (A : Type) : Type :=
  | Ok (a : A)
  | Raise (e : exn).
Arguments Ok {A} a.
Arguments Raise {A} e.

Definition rgba : Type := (Q * Q * Q * Q)%type.
Definition rgb : Type := (Z * Z * Z)%type.

(** A colormap called on one float gives a tuple of RGBA values. *)
Definition colormap : Type := float64 -> rgba.

Definition grid : Type := list (list Z).
(** A float array of shape (H, W, 4): what a colormap returns on an array
    of shape (H, W). *)
Definition image : Type := list (list rgba).

(** What the call can read or change outside its own locals: the caller's
    label array, pyplot's configured default colormap, the figures made so
    far, and the axes, each with the images shown on it. *)
Record World : Type := mkWorld {
  label_array : grid;
  rc_cmap : colormap;
  figures : nat;
  surfaces : list (list image)
}.

Definition M (A : Type) : Type := World -> result A * World.

Definition ret {A} (a : A) : M A := fun w => (Ok a, w).
Definition bind {A B} (m : M A) (k : A -> M B) : M B :=
  fun w => match m w with
           | (Ok a, w') => k a w'
           | (Raise e, w') => (Raise e, w')
           end.
Definition lift {A} (r : result A) : M A := fun w => (r, w).

Declare Scope py_scope.
Delimit Scope py_scope with py.
Notation "'do' x <- m ; k" := (bind m (fun x => k))
  (at level 10, x name, m at level 100, k at level 200) : py_scope.
Notation "'run' m ; k" := (bind m (fun _ => k))
  (at level 10, m at level 100, k at level 200) : py_scope.
Local Open Scope py_scope.

(** An expression statement whose value is an exception object: the object
    is built and dropped, nothing is raised. *)
Definition discard (e : exn) : M unit := ret tt.

(** ** numpy *)

(** [label.max()] *)
Definition ndarray_max (a : grid) : result Z :=
  match concat a with
  | [] => Raise ValueError_zero_size_max
  | x :: xs => Ok (fold_left Z.max xs x)
  end.

(** [label / d] *)
Definition ndarray_div (a : grid) (d : integer) : list (list float64) :=
  map (map (fun v => np_true_divide v (int_value d))) a.

(** [label < 0] *)
Definition ndarray_lt0 (a : grid) : list (list bool) :=
  map (map (fun v => v <? 0)) a.

Definition div255 (c : Z) : Q := (inject_Z c / 255)%Q.

(** [np.array(ignore_color) / 255] *)
Definition normalize_array (c : list Z) : list Q := map div255 c.

Definition write_where (img : image) (mask : list (list bool)) (c : rgba) : image :=
  zip_with (zip_with (fun (p : rgba) (b : bool) => if b then c else p)) img mask.

(** [img[mask] = value] for [img] of shape (H, W, 4), [mask] of shape
    (H, W) and a one-dimensional [value]: the selection has shape (K, 4),
    and [value] must broadcast to it, so its length is 4 or 1. *)
Definition setitem_mask (img : image) (mask : list (list bool)) (value : list Q)
  : result image :=
  match value with
  | [v] => Ok (write_where img mask (v, v, v, v))
  | [r; g; b; a] => Ok (write_where img mask (r, g, b, a))
  | _ => Raise ValueError_shape_mismatch
  end.

(** ** matplotlib *)

(** [cmap(X)] for an array [X] *)
Definition cmap_array (cmap : colormap) (x : list (list float64)) : image :=
  map (map cmap) x.

Definition lut_entry (c : Q * Q * Q) : rgba :=
  let '(r, g, b) := c in (r, g, b, 1%Q).

Definition bad_color : rgba := (0%Q, 0%Q, 0%Q, 0%Q).

(** [matplotlib.colors.ListedColormap(colors)] called on a float, as
    [Colormap.__call__] looks it up: the float is scaled by the number N of
    colours, 1.0 falls on the last colour, the integer part indexes the
    table; values below 0 take the first colour, values of N and above the
    last one, NaN the transparent 'bad' colour (as does an empty table). *)
Definition ListedColormap (colors : list (Q * Q * Q)) : colormap :=
  fun x =>
    let N := Z.of_nat (length colors) in
    let lut (i : Z) := lut_entry (nth (Z.to_nat i) colors (0%Q, 0%Q, 0%Q)) in
    if N =? 0 then bad_color else
    match x with
    | NaN => bad_color
    | PosInf => lut (N - 1)
    | NegInf => lut 0
    | Fin q =>
        let xa := (q * inject_Z N)%Q in
        if Qeq_bool xa (inject_Z N) then lut (N - 1)
        else if Qle_bool (inject_Z N) xa then lut (N - 1)
        else if Qle_bool 0 xa then lut (Qfloor xa)
        else lut 0
    end.

(** [plot.get_cmap()] *)
Definition get_cmap : M colormap := fun w => (Ok (rc_cmap w), w).

(** [fig = plot.figure(); ax = fig.add_subplot(1, 1, 1)]: one more figure
    and one more, empty, axes; the handle of the new axes is returned. *)
Definition new_subplot : M nat :=
  fun w => (Ok (length (surfaces w)),
            mkWorld (label_array w) (rc_cmap w) (S (figures w)) (surfaces w ++ [[]])).

(** [ax.imshow(img)]: the image is added to what the axes [ax] shows.  A
    handle stands for an axes object the caller holds, so it is one of
    the world's. *)
Definition imshow (ax : nat) (img : image) : M unit :=
  fun w => (Ok tt,
            mkWorld (label_array w) (rc_cmap w) (figures w)
                    (alter (fun shown => shown ++ [img]) ax (surfaces w))).

(** [matplotlib.patches.Patch(color=..., label=...)] *)
Record Patch : Type := mkPatch {
  patch_color : rgba;
  patch_label : string
}.

(** ** vis_label, statement by statement *)

(** [len(xs)] *)
Definition len {A} (xs : list A) : integer := PyInt (Z.of_nat (length xs)).

(** Lines 64-69: the number of classes. *)
Definition n_class_of (label : grid) (label_names : option (list string))
    (colors : option (list rgb)) : result integer :=
  match label_names, colors with
  | Some names, _ => Ok (len names)
  | None, Some cs => Ok (len cs)
  | None, None =>
      match ndarray_max label with
      | Ok m => Ok (NpInt m)
      | Raise e => Raise e
      end
  end.

(** Line 71: [colors is not None and not len(colors) == n_class]. *)
Definition colors_size_differs (colors : option (list rgb)) (n_class : integer) : bool :=
  match colors with
  | Some cs => negb (int_value (len cs) =? int_value n_class)
  | None => false
  end.

(** Line 73: [label.max() >= n_class]. *)
Definition label_exceeds (label : grid) (n_class : integer) : result bool :=
  match ndarray_max label with
  | Ok m => Ok (int_value n_class <=? m)
  | Raise e => Raise e
  end.

(** Lines 71-74: both [ValueError(...)] are expression statements. *)
Definition check_arguments (label : grid) (colors : option (list rgb))
    (n_class : integer) : M unit :=
  run (if colors_size_differs colors n_class
       then discard ValueError_colors_size else ret tt);
  do exceeds <- lift (label_exceeds label n_class);
  if exceeds then discard ValueError_label_exceeds else ret tt.

(** [str(l)] for [l] out of a [range] *)
Definition str (l : nat) : string := pretty l.

(** [range(stop)] *)
Definition range (stop : Z) : list nat := seq 0 (Z.to_nat stop).

(** Lines 76-77. *)
Definition resolve_names (label : grid) (label_names : option (list string))
  : result (list string) :=
  match label_names with
  | Some names => Ok names
  | None =>
      match ndarray_max label with
      | Ok m => Ok (map str (range (m + 1)))
      | Raise e => Raise e
      end
  end.

(** Line 83: [(r / 255, g / 255, b / 255)]. *)
Definition normalize_color (c : rgb) : Q * Q * Q :=
  let '(r, g, b) := c in (div255 r, div255 g, div255 b).

(** Lines 79-84. *)
Definition resolve_cmap (colors : option (list rgb)) : M colormap :=
  match colors with
  | None => get_cmap
  | Some cs => ret (ListedColormap (map normalize_color cs))
  end.

(** Line 86: [img = cmap(label / (n_class - 1))]. *)
Definition base_image (cmap : colormap) (label : grid) (n_class : integer) : image :=
  cmap_array cmap (ndarray_div label (int_pred n_class)).

(** Lines 89-90: [img[label < 0] = np.array(ignore_color) / 255]. *)
Definition paint_ignored (img : image) (label : grid) (ignore_color : list Z)
  : result image :=
  setitem_mask img (ndarray_lt0 label) (normalize_array ignore_color).

(** Lines 92-96. *)
Definition show (ax : option nat) (img : image) : M nat :=
  do ax <- match ax with
           | Some a => ret a
           | None => new_subplot
           end;
  run imshow ax img;
  ret ax.

(** [l / d] for a Python int [l]: a Python int divisor of zero raises, a
    numpy divisor of zero gives a non-finite float. *)
Definition int_true_divide (l : Z) (d : integer) : result float64 :=
  match d with
  | PyInt z => if z =? 0 then Raise ZeroDivisionError
               else Ok (Fin (inject_Z l / inject_Z z)%Q)
  | NpInt z => Ok (np_true_divide l z)
  end.

(** Lines 98-101: the loop over [enumerate(label_names)], [l] being the
    index of the next name and [legend_handles] the list built so far. *)
Fixpoint legend_loop (cmap : colormap) (n_class : integer) (l : Z)
    (label_names : list string) (legend_handles : list Patch) : result (list Patch) :=
  match label_names with
  | [] => Ok legend_handles
  | label_name :: rest =>
      match int_true_divide l (int_pred n_class) with
      | Ok x => legend_loop cmap n_class (l + 1) rest
                  (legend_handles ++ [mkPatch (cmap x) label_name])
      | Raise e => Raise e
      end
  end.

Definition build_legend (cmap : colormap) (n_class : integer)
    (label_names : list string) : result (list Patch) :=
  legend_loop cmap n_class 0 label_names [].

(** The whole call.  The label array is the caller's object in the world;
    [alpha] is a parameter that no statement reads. *)
Definition vis_label (label_names : option (list string)) (colors : option (list rgb))
    (ignore_color : list Z) (alpha : Q) (ax : option nat)
  : M (nat * list Patch) :=
  do label <- (fun w => (Ok (label_array w), w));
  do n_class <- lift (n_class_of label label_names colors);
  run check_arguments label colors n_class;
  do label_names <- lift (resolve_names label label_names);
  do cmap <- resolve_cmap colors;
  let img := base_image cmap label n_class in
  do img <- lift (paint_ignored img label ignore_color);
  do ax <- show ax img;
  do legend_handles <- lift (build_legend cmap n_class label_names);
  ret (ax, legend_handles).

(** The default of the [ignore_color] parameter. *)
Definition default_ignore_color : list Z := [0; 0; 0].


(** ** Inputs used in the examples *)

(** A default colormap for the examples: a gray ramp, white above it,
    black below it, transparent at NaN. *)
Definition gray : colormap :=
  fun x =>
    match x with
    | Fin q => (q, q, q, 1%Q)
    | PosInf => (1%Q, 1%Q, 1%Q, 1%Q)
    | NegInf => (0%Q, 0%Q, 0%Q, 1%Q)
    | NaN => bad_color
    end.

(** A world holding the label array [label], no figure yet, and one axes
    (handle 0) with nothing shown on it. *)
Definition world0 (label : grid) : World := mkWorld label gray 0 [[]].

Definition red_green_blue : list rgb := [(255, 0, 0); (0, 255, 0); (0, 0, 255)].

(** The legend a call builds: lines 64-69, 76-77 and 98-101 on their own. *)
Definition legend_of (cmap : colormap) (label : grid)
    (label_names : option (list string)) (colors : option (list rgb))
  : result (list Patch) :=
  match n_class_of label label_names colors with
  | Ok n_class =>
      match resolve_names label label_names with
      | Ok names => build_legend cmap n_class names
      | Raise e => Raise e
      end
  | Raise e => Raise e
  end.

(** [a[i, j]] *)
Definition pixel {A} (a : list (list A)) (i j : nat) : option A :=
  match a !! i with
  | Some row => row !! j
  | None => None
  end.

(** * Properties *)

(** ** Division *)

Lemma int_true_divide_np (l : Z) (d : integer) :
  d <> PyInt 0 -> int_true_divide l d = Ok (np_true_divide l (int_value d)).
Proof.
  destruct d as [z|z]; simpl; intros Hd; [|reflexivity].
  destruct (Z.eqb_spec z 0) as [->|Hz]; [congruence|].
  unfold np_true_divide. destruct (Z.eqb_spec z 0); [lia|reflexivity].
Qed.

Lemma int_pred_not_zero (n : integer) : n <> PyInt 1 -> int_pred n <> PyInt 0.
Proof.
  destruct n as [z|z]; simpl; intros Hn Hz; [|discriminate].
  apply Hn. f_equal. injection Hz. lia.
Qed.

Lemma int_value_pred (n : integer) : int_value (int_pred n) = int_value n - 1.
Proof. destruct n; reflexivity. Qed.

(** ** The legend loop *)

Lemma legend_loop_spec (cmap : colormap) (n_class : integer) :
  n_class <> PyInt 1 ->
  forall (names : list string) (l : nat) (acc : list Patch),
    legend_loop cmap n_class (Z.of_nat l) names acc =
    Ok (acc ++ imap (fun i name =>
                       mkPatch (cmap (np_true_divide (Z.of_nat (l + i))
                                                     (int_value n_class - 1))) name)
                    names).
Proof.
  intros Hn names. induction names as [|name rest IH]; intros l acc; simpl.
  - now rewrite app_nil_r.
  - rewrite int_true_divide_np; [|now apply int_pred_not_zero].
    rewrite int_value_pred.
    assert (Hl : Z.of_nat l + 1 = Z.of_nat (S l)) by lia.
    rewrite Hl, IH, <- app_assoc. simpl. rewrite Nat.add_0_r.
    do 3 f_equal. apply imap_ext. intros i x _. simpl.
    do 3 f_equal. lia.
Qed.

Lemma build_legend_spec (cmap : colormap) (n_class : integer) (names : list string) :
  n_class <> PyInt 1 ->
  build_legend cmap n_class names =
  Ok (imap (fun l name =>
              mkPatch (cmap (np_true_divide (Z.of_nat l) (int_value n_class - 1))) name)
           names).
Proof.
  intros Hn. exact (legend_loop_spec cmap n_class Hn names 0%nat []).
Qed.

Lemma build_legend_one_class (cmap : colormap) (name : string) (rest : list string) :
  build_legend cmap (PyInt 1) (name :: rest) = Raise ZeroDivisionError.
Proof. reflexivity. Qed.

(** ** Lookups in a listed colormap *)

Lemma scaled_index_floor (l p : Z) :
  0 < p -> 0 <= l < p -> (l * (p + 1)) / p = l.
Proof.
  intros Hp Hl. symmetry. apply (Z.div_unique _ _ _ l); lia.
Qed.

Lemma ListedColormap_at (cs : list (Q * Q * Q)) (l : nat) :
  (2 <= length cs)%nat -> (l < length cs)%nat ->
  ListedColormap cs (np_true_divide (Z.of_nat l) (Z.of_nat (length cs) - 1)) =
  lut_entry (nth l cs (0%Q, 0%Q, 0%Q)).
Proof.
  intros Hn Hl. unfold ListedColormap, np_true_divide.
  set (N := Z.of_nat (length cs)).
  assert (HN : 2 <= N) by (unfold N; lia).
  assert (HlN : 0 <= Z.of_nat l < N) by (unfold N; lia).
  destruct (Z.eqb_spec N 0) as [?|_]; [lia|].
  destruct (Z.eqb_spec (N - 1) 0) as [?|_]; [lia|].
  destruct (N - 1) as [|p|p] eqn:Hp; try lia.
  set (xa := (inject_Z (Z.of_nat l) / inject_Z (Z.pos p) * inject_Z N)%Q).
  assert (Hxa : xa = (Z.of_nat l * 1 * N) # (1 * p * 1)) by reflexivity.
  clearbody xa. subst xa.
  rewrite Pos.mul_1_l, Pos.mul_1_r, Z.mul_1_r.
  destruct (Z.eq_dec (Z.of_nat l) (Z.pos p)) as [Heq|Hne].
  - assert (E : Qeq_bool (Z.of_nat l * N # p) (inject_Z N) = true).
    { apply Qeq_bool_iff. unfold Qeq. simpl. lia. }
    rewrite E. do 2 f_equal. lia.
  - assert (E1 : Qeq_bool (Z.of_nat l * N # p) (inject_Z N) = false).
    { destruct (Qeq_bool _ _) eqn:E; [|reflexivity].
      apply Qeq_bool_iff in E. unfold Qeq in E. simpl in E. nia. }
    assert (E2 : Qle_bool (inject_Z N) (Z.of_nat l * N # p) = false).
    { destruct (Qle_bool _ _) eqn:E; [|reflexivity].
      apply Qle_bool_iff in E. unfold Qle in E. simpl in E. nia. }
    assert (E3 : Qle_bool 0 (Z.of_nat l * N # p) = true).
    { apply Qle_bool_iff. unfold Qle. simpl. nia. }
    rewrite E1, E2, E3. do 2 f_equal.
    unfold Qfloor. replace N with (Z.pos p + 1); [|lia].
    rewrite scaled_index_floor; lia.
Qed.

(** ** The call as a whole *)

Lemma resolve_cmap_pure (colors : option (list rgb)) (w : World) :
  exists cmap, resolve_cmap colors w = (Ok cmap, w).
Proof. destruct colors; eexists; reflexivity. Qed.

Lemma check_arguments_pure (label : grid) (colors : option (list rgb))
    (n_class : integer) (w : World) :
  snd (check_arguments label colors n_class w) = w.
Proof.
  unfold check_arguments, bind, lift, discard, ret.
  destruct (colors_size_differs colors n_class); simpl;
    destruct (label_exceeds label n_class) as [[|]|]; reflexivity.
Qed.

(** Lines 71-74 raise nothing of their own: the only exception that can
    leave them is numpy's, from [label.max()] on an empty array. *)
Lemma check_arguments_result (label : grid) (colors : option (list rgb))
    (n_class : integer) (w : World) :
  fst (check_arguments label colors n_class w) =
  match ndarray_max label with
  | Ok _ => Ok tt
  | Raise e => Raise e
  end.
Proof.
  unfold check_arguments, bind, lift, discard, ret, label_exceeds.
  destruct (colors_size_differs colors n_class); simpl;
    destruct (ndarray_max label) as [m|]; simpl;
    try destruct (int_value n_class <=? m); reflexivity.
Qed.

Lemma vis_label_ok (label_names : option (list string)) (colors : option (list rgb))
    (ignore_color : list Z) (alpha : Q) (ax : option nat) (w w' : World)
    (ax' : nat) (legend : list Patch) :
  vis_label label_names colors ignore_color alpha ax w = (Ok (ax', legend), w') ->
  exists n_class names cmap img,
    n_class_of (label_array w) label_names colors = Ok n_class /\
    resolve_names (label_array w) label_names = Ok names /\
    resolve_cmap colors w = (Ok cmap, w) /\
    paint_ignored (base_image cmap (label_array w) n_class) (label_array w)
                  ignore_color = Ok img /\
    show ax img w = (Ok ax', w') /\
    build_legend cmap n_class names = Ok legend.
Proof.
  unfold vis_label, bind, lift. simpl.
  destruct (n_class_of _ _ _) as [n_class|]; [|discriminate].
  pose proof (check_arguments_pure (label_array w) colors n_class w) as Hw.
  destruct (check_arguments _ _ _ w) as [[[]|] w1]; [|discriminate].
  simpl in Hw. subst w1.
  destruct (resolve_names _ _) as [names|]; [|discriminate].
  destruct (resolve_cmap_pure colors w) as [cmap Hc]. rewrite Hc.
  destruct (paint_ignored _ _ _) as [img|] eqn:Hp; [|discriminate].
  destruct (show ax img w) as [[a|] w2] eqn:Hs; [|discriminate].
  destruct (build_legend _ _ _) as [lg|] eqn:Hl; [|discriminate].
  unfold ret. intros H. injection H as -> -> ->.
  exists n_class, names, cmap, img. repeat split; auto.
Qed.

Lemma show_frame (ax : option nat) (img : image) (w : World) :
  let w' := snd (show ax img w) in
  label_array w' = label_array w /\ rc_cmap w' = rc_cmap w /\
  match ax with
  | Some a =>
      fst (show ax img w) = Ok a /\
      figures w' = figures w /\
      surfaces w' = alter (fun shown => shown ++ [img]) a (surfaces w)
  | None =>
      fst (show ax img w) = Ok (length (surfaces w)) /\
      figures w' = S (figures w) /\
      surfaces w' = surfaces w ++ [[img]]
  end.
Proof.
  destruct ax as [a|]; simpl; repeat split.
  now rewrite alter_app_r_alt, Nat.sub_diag.
Qed.

(** What any call, returning or raising, leaves as it was: the label
    array, the default colormap, and, when [ax] is given, the number of
    figures and every other axes. *)
Lemma vis_label_frame (label_names : option (list string)) (colors : option (list rgb))
    (ignore_color : list Z) (alpha : Q) (ax : option nat) (w : World) :
  let w' := snd (vis_label label_names colors ignore_color alpha ax w) in
  label_array w' = label_array w /\
  rc_cmap w' = rc_cmap w /\
  match ax with
  | Some a =>
      figures w' = figures w /\
      length (surfaces w') = length (surfaces w) /\
      forall b, b <> a -> surfaces w' !! b = surfaces w !! b
  | None =>
      (figures w' <= S (figures w))%nat /\
      forall b, (b < length (surfaces w))%nat -> surfaces w' !! b = surfaces w !! b
  end.
Proof.
  assert (Hrefl : label_array w = label_array w /\ rc_cmap w = rc_cmap w /\
                  match ax with
                  | Some a =>
                      figures w = figures w /\
                      length (surfaces w) = length (surfaces w) /\
                      forall b, b <> a -> surfaces w !! b = surfaces w !! b
                  | None =>
                      (figures w <= S (figures w))%nat /\
                      forall b, (b < length (surfaces w))%nat ->
                                surfaces w !! b = surfaces w !! b
                  end).
  { destruct ax; repeat split; auto. }
  unfold vis_label, bind, lift. simpl.
  destruct (n_class_of _ _ _) as [n_class|]; [|exact Hrefl].
  pose proof (check_arguments_pure (label_array w) colors n_class w) as Hw.
  destruct (check_arguments _ _ _ w) as [[[]|] w1]; simpl in Hw; subst w1;
    [|exact Hrefl].
  destruct (resolve_names _ _) as [names|]; [|exact Hrefl].
  destruct (resolve_cmap_pure colors w) as [cmap Hc]. rewrite Hc.
  destruct (paint_ignored _ _ _) as [img|]; [|exact Hrefl].
  pose proof (show_frame ax img w) as Hs.
  destruct (show ax img w) as [r w2]. simpl in Hs.
  assert (Hw2 : label_array w2 = label_array w /\ rc_cmap w2 = rc_cmap w /\
                match ax with
                | Some a =>
                    figures w2 = figures w /\
                    length (surfaces w2) = length (surfaces w) /\
                    forall b, b <> a -> surfaces w2 !! b = surfaces w !! b
                | None =>
                    (figures w2 <= S (figures w))%nat /\
                    forall b, (b < length (surfaces w))%nat ->
                              surfaces w2 !! b = surfaces w !! b
                end).
  { destruct Hs as (Hl & Hr & Hs). split; [exact Hl|]. split; [exact Hr|].
    destruct ax as [a|]; destruct Hs as (_ & Hf & Hsf); rewrite Hsf, Hf.
    - repeat split.
      + apply length_alter.
      + intros b Hb. apply list_lookup_alter_ne. congruence.
    - split; [lia|]. intros b Hb. now apply lookup_app_l. }
  destruct r as [a|]; [destruct (build_legend cmap n_class names)|]; exact Hw2.
Qed.

(** ** The image *)

Lemma base_image_pixel (cmap : colormap) (label : grid) (n_class : integer)
    (i j : nat) (v : Z) :
  pixel label i j = Some v ->
  pixel (base_image cmap label n_class) i j =
  Some (cmap (np_true_divide v (int_value n_class - 1))).
Proof.
  unfold pixel, base_image, cmap_array, ndarray_div, grid in *.
  rewrite !list_lookup_fmap.
  destruct (label !! i) as [row|]; [|done]. simpl. intros Hv.
  rewrite !list_lookup_fmap, Hv. simpl. now rewrite int_value_pred.
Qed.

Lemma write_where_pixel (img : image) (label : grid) (c p : rgba) (i j : nat) (v : Z) :
  pixel label i j = Some v ->
  pixel img i j = Some p ->
  pixel (write_where img (ndarray_lt0 label) c) i j = Some (if v <? 0 then c else p).
Proof.
  unfold pixel, write_where, ndarray_lt0, grid, image in *.
  rewrite lookup_zip_with, list_lookup_fmap.
  destruct (label !! i) as [lrow|]; [|done].
  destruct (img !! i) as [irow|]; [|done]. simpl. intros Hv Hp.
  rewrite lookup_zip_with, list_lookup_fmap, Hp, Hv. reflexivity.
Qed.

(** An RGB triple does not broadcast into a selection of RGBA pixels. *)
Lemma paint_ignored_rgb (img : image) (label : grid) (r g b : Z) :
  paint_ignored img label [r; g; b] = Raise ValueError_shape_mismatch.
Proof. reflexivity. Qed.

(** A value of four channels is written at the negative labels, and only
    there. *)
Lemma paint_ignored_rgba (cmap : colormap) (label : grid) (n_class : integer)
    (r g b a : Z) (i j : nat) (v : Z) :
  pixel label i j = Some v ->
  exists img,
    paint_ignored (base_image cmap label n_class) label [r; g; b; a] = Ok img /\
    pixel img i j =
    Some (if v <? 0 then (div255 r, div255 g, div255 b, div255 a)
          else cmap (np_true_divide v (int_value n_class - 1))).
Proof.
  intros Hv. eexists. split; [reflexivity|].
  apply write_where_pixel; [exact Hv|]. now apply base_image_pixel.
Qed.

Lemma vis_label_rgb_raises (label_names : option (list string))
    (colors : option (list rgb)) (r g b : Z) (alpha : Q) (ax : option nat)
    (w : World) (m : Z) :
  ndarray_max (label_array w) = Ok m ->
  vis_label label_names colors [r; g; b] alpha ax w =
  (Raise ValueError_shape_mismatch, w).
Proof.
  intros Hm. unfold vis_label, bind, lift. simpl.
  assert (Hn : exists n, n_class_of (label_array w) label_names colors = Ok n).
  { unfold n_class_of. rewrite Hm. destruct label_names, colors; eexists; reflexivity. }
  destruct Hn as [n_class ->].
  pose proof (check_arguments_pure (label_array w) colors n_class w) as Hw.
  pose proof (check_arguments_result (label_array w) colors n_class w) as Hr.
  rewrite Hm in Hr.
  destruct (check_arguments _ _ _ w) as [r0 w1]. simpl in Hw, Hr. subst r0 w1.
  assert (Hnames : exists ns, resolve_names (label_array w) label_names = Ok ns).
  { unfold resolve_names. rewrite Hm. destruct label_names; eexists; reflexivity. }
  destruct Hnames as [names ->].
  destruct (resolve_cmap_pure colors w) as [cmap ->].
  reflexivity.
Qed.

(** ** Which exceptions a call can end in *)

Lemma ndarray_max_raises (a : grid) (e : exn) :
  ndarray_max a = Raise e -> e = ValueError_zero_size_max.
Proof. unfold ndarray_max. destruct (concat a); congruence. Qed.

Lemma legend_loop_raises (cmap : colormap) (n_class : integer) (names : list string) :
  forall (l : Z) (acc : list Patch) (e : exn),
    legend_loop cmap n_class l names acc = Raise e -> e = ZeroDivisionError.
Proof.
  induction names as [|name rest IH]; intros l acc e; simpl; [discriminate|].
  destruct (int_true_divide l (int_pred n_class)) as [x|e'] eqn:Hd.
  - apply IH.
  - intros H. injection H as <-. unfold int_true_divide in Hd.
    destruct (int_pred n_class) as [z|z]; [|discriminate].
    destruct (z =? 0); congruence.
Qed.

(** The two [ValueError]s of lines 72 and 74 are not among them. *)
Lemma vis_label_raises_only (label_names : option (list string))
    (colors : option (list rgb)) (ignore_color : list Z) (alpha : Q)
    (ax : option nat) (w : World) (e : exn) :
  fst (vis_label label_names colors ignore_color alpha ax w) = Raise e ->
  e = ValueError_zero_size_max \/ e = ValueError_shape_mismatch \/
  e = ZeroDivisionError.
Proof.
  unfold vis_label, bind, lift. simpl.
  destruct (n_class_of _ _ _) as [n_class|e0] eqn:Hn.
  2: { simpl. intros H. injection H as <-. left.
       unfold n_class_of in Hn. destruct label_names, colors; try discriminate.
       destruct (ndarray_max (label_array w)) eqn:Hm; [discriminate|].
       injection Hn as <-. now apply (ndarray_max_raises (label_array w)). }
  pose proof (check_arguments_pure (label_array w) colors n_class w) as Hw.
  pose proof (check_arguments_result (label_array w) colors n_class w) as Hr.
  destruct (check_arguments _ _ _ w) as [r0 w1]. simpl in Hw, Hr. subst r0 w1.
  destruct (ndarray_max (label_array w)) as [m|e0] eqn:Hm.
  2: { simpl. intros H. injection H as <-. left.
       now apply (ndarray_max_raises (label_array w)). }
  assert (Hnames : exists ns, resolve_names (label_array w) label_names = Ok ns).
  { unfold resolve_names. rewrite Hm. destruct label_names; eexists; reflexivity. }
  destruct Hnames as [names ->].
  destruct (resolve_cmap_pure colors w) as [cmap ->].
  destruct (paint_ignored _ _ _) as [img|e0] eqn:Hp.
  2: { simpl. intros H. injection H as <-. right. left.
       unfold paint_ignored, setitem_mask in Hp.
       destruct (normalize_array ignore_color) as [|? [|? [|? [|? [|? ?]]]]];
         congruence. }
  destruct (show_frame ax img w) as (_ & _ & Hs).
  destruct (show ax img w) as [r w2]. simpl in Hs.
  assert (Hr : exists a, r = Ok a) by (destruct ax; destruct Hs as [-> _]; eauto).
  destruct Hr as [a ->].
  destruct (build_legend cmap n_class names) as [lg|e0] eqn:Hl; [discriminate|].
  simpl. intros H. injection H as <-. right. right.
  now apply (legend_loop_raises cmap n_class names 0 []).
Qed.

(** A legend that is returned is the one [legend_of] computes. *)
Lemma vis_label_returns_legend_of (label_names : option (list string))
    (colors : option (list rgb)) (ignore_color : list Z) (alpha : Q)
    (ax : option nat) (w w' : World) (ax' : nat) (legend : list Patch) :
  vis_label label_names colors ignore_color alpha ax w = (Ok (ax', legend), w') ->
  exists cmap,
    resolve_cmap colors w = (Ok cmap, w) /\
    legend_of cmap (label_array w) label_names colors = Ok legend.
Proof.
  intros H. apply vis_label_ok in H.
  destruct H as (n_class & names & cmap & img & Hn & Hnames & Hc & _ & _ & Hl).
  exists cmap. split; [exact Hc|].
  unfold legend_of. now rewrite Hn, Hnames.
Qed.

(** * The claims of the specification *)

Local Open Scope string_scope.

(** C1.  The specification asks that a [colors] whose length differs from
    the number of classes signals InvalidColorCount, and a label value of
    [n_class] or more OutOfRangeClass, before anything is drawn.  At
    [label = [[2, -1]]], [label_names = ["a", "b"]], [colors = [(255, 0, 0)]]
    both conditions hold, lines 71-74 build both exception objects and
    return normally, and the call goes on: with the default ignore colour
    it ends in numpy's broadcast error of line 90, with an ignore colour
    of four channels it draws the image on the given axes and returns. *)
Theorem C1_validation_errors_are_built_not_raised :
  let label := [[2; -1]] in
  let label_names := Some ["a"; "b"] in
  let colors := Some [(255, 0, 0)] in
  n_class_of label label_names colors = Ok (PyInt 2) /\
  colors_size_differs colors (PyInt 2) = true /\
  label_exceeds label (PyInt 2) = Ok true /\
  check_arguments label colors (PyInt 2) (world0 label) = (Ok tt, world0 label) /\
  vis_label label_names colors default_ignore_color 1 (Some 0%nat) (world0 label) =
    (Raise ValueError_shape_mismatch, world0 label) /\
  exists legend img,
    vis_label label_names colors [0; 0; 0; 255] 1 (Some 0%nat) (world0 label) =
      (Ok (0%nat, legend), mkWorld label gray 0 [[img]]).
Proof.
  repeat split. do 2 eexists. cbv. reflexivity.
Qed.

(** C2.  The specification asks that a pixel of value [0 <= v < n_class]
    gets the palette colour at [v / (n_class - 1)], and at 0 when there is
    one class.  With one class ([label = [[0]]], [label_names = ["a"]])
    line 86 divides 0 by 0: the pixel gets the palette colour at NaN, which
    for the palette listed from [colors = [(255, 0, 0)]] is the transparent
    colour and not the colour at 0. *)
Theorem C2_single_class_pixel_is_looked_up_at_nan :
  let label := [[0]] in
  let cmap := ListedColormap (map normalize_color [(255, 0, 0)]) in
  n_class_of label (Some ["a"]) (Some [(255, 0, 0)]) = Ok (PyInt 1) /\
  (forall palette : colormap,
     pixel (base_image palette label (PyInt 1)) 0 0 = Some (palette NaN)) /\
  pixel (base_image cmap label (PyInt 1)) 0 0 = Some bad_color /\
  cmap (Fin 0) = (div255 255, div255 0, div255 0, 1%Q) /\
  pixel (base_image cmap label (PyInt 1)) 0 0 <> Some (cmap (Fin 0)).
Proof.
  repeat split. discriminate.
Qed.

(** C3.  The specification asks that every pixel of negative value gets
    the normalized [ignore_color], whatever the palette.  In the scenario
    of the specification ([label = [[0, 1], [-1, 1]]],
    [label_names = ["bg", "fg"]], [ignore_color = (10, 20, 30)]) line 90
    assigns three channels to a selection of RGBA pixels: numpy raises,
    for the default palette and for a listed one alike, and nothing is
    drawn. *)
Theorem C3_ignore_color_assignment_raises :
  let label := [[0; 1]; [-1; 1]] in
  let label_names := Some ["bg"; "fg"] in
  (forall palette : colormap,
     paint_ignored (base_image palette label (PyInt 2)) label [10; 20; 30] =
     Raise ValueError_shape_mismatch) /\
  vis_label label_names None [10; 20; 30] 1 None (world0 label) =
    (Raise ValueError_shape_mismatch, world0 label) /\
  vis_label label_names (Some [(255, 0, 0); (0, 255, 0)]) [10; 20; 30] 1 None
            (world0 label) =
    (Raise ValueError_shape_mismatch, world0 label).
Proof.
  repeat split.
Qed.

(** C4, as the specification states it, fails: with [label_names] absent
    the legend follows the grid.  For [colors] of three entries there are
    three classes, yet [label = [[0]]] gives a legend of one entry and
    [label = [[2]]] one of three. *)
Lemma C4_legend_length_follows_the_grid :
  let cmap := ListedColormap (map normalize_color red_green_blue) in
  n_class_of [[0]] None (Some red_green_blue) = Ok (PyInt 3) /\
  n_class_of [[2]] None (Some red_green_blue) = Ok (PyInt 3) /\
  (exists legend, legend_of cmap [[0]] None (Some red_green_blue) = Ok legend /\
                  length legend = 1%nat) /\
  (exists legend, legend_of cmap [[2]] None (Some red_green_blue) = Ok legend /\
                  length legend = 3%nat).
Proof.
  repeat split; eexists; split; reflexivity.
Qed.

(** C4, amended.  Unless the number of classes is the Python int 1, the
    legend a call builds has one entry per name, in order: the given names,
    or, when [label_names] is absent, the strings of 0 .. [label.max()].
    Entry [l] pairs the palette colour at [l / (n_class - 1)] with name [l].
    When [label_names] is given the legend has [n_class] entries and is the
    same for every label grid. *)
Theorem C4_legend_has_one_entry_per_name (cmap : colormap) (label : grid)
    (label_names : option (list string)) (colors : option (list rgb))
    (n_class : integer) (names : list string) :
  n_class_of label label_names colors = Ok n_class ->
  resolve_names label label_names = Ok names ->
  n_class <> PyInt 1 ->
  exists legend,
    legend_of cmap label label_names colors = Ok legend /\
    length legend = length names /\
    (forall l name,
       names !! l = Some name ->
       legend !! l =
       Some (mkPatch (cmap (np_true_divide (Z.of_nat l) (int_value n_class - 1)))
                     name)) /\
    (label_names = None ->
     forall m, ndarray_max label = Ok m -> names = map str (range (m + 1))) /\
    (forall given,
       label_names = Some given ->
       names = given /\
       Z.of_nat (length legend) = int_value n_class /\
       forall label', legend_of cmap label' label_names colors = Ok legend).
Proof.
  intros Hn Hnames Hone. eexists. split; [|split; [|split; [|split]]].
  - unfold legend_of. rewrite Hn, Hnames. now apply build_legend_spec.
  - apply length_imap.
  - intros l name Hl. now rewrite list_lookup_imap, Hl.
  - intros -> m Hm. simpl in Hnames. rewrite Hm in Hnames. congruence.
  - intros given ->. simpl in Hn, Hnames.
    injection Hn as <-. injection Hnames as <-.
    split; [reflexivity|]. split; [now rewrite length_imap|].
    intros label'. unfold legend_of. simpl.
    now rewrite build_legend_spec.
Qed.

Lemma C4_legend_has_one_entry_per_name_witness :
  exists legend,
    legend_of gray [[0; 1]] (Some ["bg"; "fg"]) None = Ok legend /\
    length legend = 2%nat.
Proof.
  destruct (C4_legend_has_one_entry_per_name gray [[0; 1]] (Some ["bg"; "fg"]) None
              (PyInt 2) ["bg"; "fg"])
    as (legend & Hl & Hlen & _);
    [reflexivity | reflexivity | discriminate |].
  exists legend. split; [exact Hl | exact Hlen].
Defined.

(** C5, as the specification states it, fails: with [label_names] absent,
    two colours supplied and [label = [[0]]], the legend has one entry, so
    its colours are not the two supplied ones. *)
Lemma C5_legend_colors_can_be_fewer :
  let colors := [(255, 0, 0); (0, 255, 0)] in
  exists legend,
    legend_of (ListedColormap (map normalize_color colors)) [[0]] None (Some colors)
      = Ok legend /\
    map patch_color legend = [(div255 255, div255 0, div255 0, 1%Q)] /\
    map patch_color legend <> map (fun c => lut_entry (normalize_color c)) colors.
Proof.
  eexists. split; [reflexivity|]. split; [reflexivity|]. discriminate.
Qed.

(** C5, amended.  When [colors] holds at least two triples and the legend
    has as many names as there are colours (the given [label_names], or
    the synthesized ones when [label.max() + 1] is that number), the
    colours of the legend entries, in order, are the supplied triples
    divided by 255, with alpha 1. *)
Theorem C5_legend_colors_are_the_supplied_ones (cmap : colormap) (label : grid)
    (label_names : option (list string)) (colors : list rgb)
    (n_class : integer) (names : list string) (w : World) :
  n_class_of label label_names (Some colors) = Ok n_class ->
  resolve_names label label_names = Ok names ->
  resolve_cmap (Some colors) w = (Ok cmap, w) ->
  length names = length colors ->
  (2 <= length colors)%nat ->
  exists legend,
    legend_of cmap label label_names (Some colors) = Ok legend /\
    map patch_color legend = map (fun c => lut_entry (normalize_color c)) colors.
Proof.
  intros Hn Hnames Hc Hlen H2.
  assert (Hnc : n_class = len colors).
  { destruct label_names as [given|]; simpl in Hn, Hnames.
    - injection Hnames as ->. injection Hn as <-. unfold len. now rewrite Hlen.
    - congruence. }
  subst n_class. simpl in Hc. injection Hc as <-.
  assert (Hone : len colors <> PyInt 1).
  { unfold len. intros H. injection H. lia. }
  eexists. split.
  - unfold legend_of. rewrite Hn, Hnames. now apply build_legend_spec.
  - apply list_eq. intros i.
    rewrite !list_lookup_fmap, list_lookup_imap.
    destruct (colors !! i) as [c|] eqn:Hci.
    + assert (Hi : (i < length colors)%nat) by (eapply lookup_lt_Some; eauto).
      destruct (lookup_lt_is_Some_2 names i) as [name Hname]; [lia|].
      rewrite Hname. simpl. f_equal.
      pose proof (ListedColormap_at (map normalize_color colors) i) as Hat.
      rewrite length_map in Hat. rewrite Hat by lia. f_equal.
      apply nth_lookup_Some with (d := (0%Q, 0%Q, 0%Q)).
      now rewrite list_lookup_fmap, Hci.
    + apply lookup_ge_None in Hci.
      rewrite (proj2 (lookup_ge_None names i)) by lia. reflexivity.
Qed.

Lemma C5_legend_colors_are_the_supplied_ones_witness :
  exists legend,
    legend_of (ListedColormap (map normalize_color red_green_blue)) [[0; 2]]
              (Some ["a"; "b"; "c"]) (Some red_green_blue) = Ok legend /\
    map patch_color legend =
    map (fun c => lut_entry (normalize_color c)) red_green_blue.
Proof.
  apply (C5_legend_colors_are_the_supplied_ones _ [[0; 2]] (Some ["a"; "b"; "c"])
           red_green_blue (PyInt 3) ["a"; "b"; "c"] (world0 [[0; 2]]));
    [reflexivity | reflexivity | reflexivity | reflexivity | simpl; lia].
Defined.

(** C6.  The specification asks that [label_names] of length n gives a
    legend of n entries carrying the names in order.  For n = 1
    ([label = [[0, -1]]], [label_names = ["a"]]) no legend is returned: the
    loop of lines 99-101 divides the Python ints 0 by 0 at its first name.
    The call ends in numpy's broadcast error of line 90 with the default
    ignore colour, and in ZeroDivisionError with one of four channels. *)
Theorem C6_single_name_gives_no_legend :
  let label := [[0; -1]] in
  let label_names := Some ["a"] in
  (forall palette : colormap,
     legend_of palette label label_names None = Raise ZeroDivisionError) /\
  fst (vis_label label_names None default_ignore_color 1 None (world0 label)) =
    Raise ValueError_shape_mismatch /\
  fst (vis_label label_names None [0; 0; 0; 255] 1 None (world0 label)) =
    Raise ZeroDivisionError.
Proof.
  repeat split.
Qed.

(** C7.  The specification asks for a guard when there is one class.
    There is none: with [n_class] equal to 1, as a Python int or as a
    numpy one, the divisor of line 86 is 0, every normalized index is
    non-finite (NaN for the value 0) and goes into the colour lookup as it
    is; in line 101 the same division on Python ints raises
    ZeroDivisionError. *)
Theorem C7_single_class_division_is_not_guarded :
  (forall v : Z,
     is_finite (np_true_divide v (int_value (int_pred (PyInt 1)))) = false /\
     is_finite (np_true_divide v (int_value (int_pred (NpInt 1)))) = false) /\
  ndarray_div [[0]] (int_pred (PyInt 1)) = [[NaN]] /\
  (forall palette : colormap, base_image palette [[0]] (PyInt 1) = [[palette NaN]]) /\
  (forall l : Z, int_true_divide l (int_pred (PyInt 1)) = Raise ZeroDivisionError).
Proof.
  repeat split;
    unfold np_true_divide; simpl; destruct (v =? 0)%Z; try reflexivity;
    destruct (0 <? v)%Z; reflexivity.
Qed.

(** C8.  Two calls that differ in [alpha] only have the same outcome: the
    same result or exception, hence the same legend, and the same world,
    hence the same image on the same axes. *)
Theorem C8_alpha_does_not_interfere (label_names : option (list string))
    (colors : option (list rgb)) (ignore_color : list Z) (alpha alpha' : Q)
    (ax : option nat) (w : World) :
  vis_label label_names colors ignore_color alpha ax w =
  vis_label label_names colors ignore_color alpha' ax w.
Proof. reflexivity. Qed.

(** C9.  The specification asks that a call given [ax] draws into it and
    returns it, touching nothing else.  At [label = [[0, -1]]],
    [label_names = ["a"]] and a given axes the call returns nothing: with
    the default ignore colour it raises at line 90 and the axes stay
    empty; with an ignore colour of four channels it shows the image on
    the axes and then raises ZeroDivisionError at line 101. *)
Theorem C9_given_axes_are_not_returned :
  let label := [[0; -1]] in
  let label_names := Some ["a"] in
  vis_label label_names None default_ignore_color 1 (Some 0%nat) (world0 label) =
    (Raise ValueError_shape_mismatch, world0 label) /\
  vis_label label_names None [0; 0; 0; 255] 1 (Some 0%nat) (world0 label) =
    (Raise ZeroDivisionError,
     mkWorld label gray 0
             [[ [[gray NaN; (div255 0, div255 0, div255 0, div255 255)]] ]]).
Proof.
  split; reflexivity.
Qed.

(** C10.  When [label_names] is absent and [colors] is given, lines 66-67
    define the number of classes as [len(colors)], for every label array,
    and the test of line 71 is then false.  The test is true for the
    number of classes the call computes exactly when both [label_names]
    and [colors] are given and their lengths differ. *)
Theorem C10_color_count_mismatch_needs_label_names (label : grid) :
  (forall cs : list rgb,
     n_class_of label None (Some cs) = Ok (len cs) /\
     colors_size_differs (Some cs) (len cs) = false) /\
  (forall (label_names : option (list string)) (colors : option (list rgb)),
     (exists n_class,
        n_class_of label label_names colors = Ok n_class /\
        colors_size_differs colors n_class = true) <->
     (exists names cs,
        label_names = Some names /\ colors = Some cs /\
        length cs <> length names)).
Proof.
  split.
  - intros cs. split; [reflexivity|].
    unfold colors_size_differs. now rewrite Z.eqb_refl.
  - intros label_names colors. split.
    + intros (n_class & Hn & Hd).
      destruct colors as [cs|]; [|discriminate].
      destruct label_names as [names|].
      * exists names, cs. split; [reflexivity|]. split; [reflexivity|].
        simpl in Hn. injection Hn as <-.
        unfold colors_size_differs in Hd. simpl in Hd.
        intros Heq. rewrite Heq, Z.eqb_refl in Hd. discriminate.
      * simpl in Hn. injection Hn as <-.
        unfold colors_size_differs in Hd. now rewrite Z.eqb_refl in Hd.
    + intros (names & cs & -> & -> & Hne).
      exists (len names). split; [reflexivity|].
      unfold colors_size_differs. simpl.
      destruct (Z.eqb_spec (Z.of_nat (length cs)) (Z.of_nat (length names)));
        [lia|reflexivity].
Qed.

(** * Further properties of the code *)

Local Open Scope list_scope.
Local Open Scope Z_scope.

Lemma pixel_in_concat {A} (a : list (list A)) (i j : nat) (v : A) :
  pixel a i j = Some v -> In v (concat a).
Proof.
  unfold pixel. destruct (a !! i) as [row|] eqn:Hrow; [|done]. intros Hv.
  apply in_concat. exists row. split; apply list_elem_of_In;
    eapply list_elem_of_lookup_2; eauto.
Qed.

Lemma ndarray_max_nonempty (label : grid) (i j : nat) (v : Z) :
  pixel label i j = Some v -> exists m, ndarray_max label = Ok m.
Proof.
  intros Hv. apply pixel_in_concat in Hv. unfold ndarray_max.
  unfold grid in *. destruct (concat label) as [|x xs]; [|eauto].
  destruct Hv.
Qed.

Lemma paint_ignored_keeps (img0 img : image) (label : grid) (ignore_color : list Z)
    (i j : nat) (v : Z) (p : rgba) :
  paint_ignored img0 label ignore_color = Ok img ->
  pixel label i j = Some v ->
  pixel img0 i j = Some p ->
  0 <= v ->
  pixel img i j = Some p.
Proof.
  unfold paint_ignored, setitem_mask. intros Hp Hv Hp0 Hpos.
  assert (Hw : forall c, pixel (write_where img0 (ndarray_lt0 label) c) i j = Some p).
  { intros c. rewrite (write_where_pixel img0 label c p i j v Hv Hp0).
    destruct (Z.ltb_spec v 0); [lia|reflexivity]. }
  destruct (normalize_array ignore_color) as [|? [|? [|? [|? [|? ?]]]]];
    try discriminate; injection Hp as <-; apply Hw.
Qed.

(** X1.  A label array without elements makes every call raise numpy's
    ValueError for the maximum of a zero-size array; the world is left as
    it was. *)
Theorem X1_empty_label_raises (label_names : option (list string))
    (colors : option (list rgb)) (ignore_color : list Z) (alpha : Q)
    (ax : option nat) (w : World) :
  concat (label_array w) = [] ->
  vis_label label_names colors ignore_color alpha ax w =
  (Raise ValueError_zero_size_max, w).
Proof.
  intros Hempty.
  assert (Hm : ndarray_max (label_array w) = Raise ValueError_zero_size_max).
  { unfold ndarray_max. now rewrite Hempty. }
  unfold vis_label, bind, lift. simpl.
  destruct (n_class_of (label_array w) label_names colors) as [n_class|e] eqn:Hn.
  - pose proof (check_arguments_pure (label_array w) colors n_class w) as Hw.
    pose proof (check_arguments_result (label_array w) colors n_class w) as Hr.
    rewrite Hm in Hr.
    destruct (check_arguments _ _ _ w) as [r0 w1]. simpl in Hw, Hr.
    now subst r0 w1.
  - unfold n_class_of in Hn. rewrite Hm in Hn.
    destruct label_names, colors; congruence.
Qed.

Lemma X1_empty_label_raises_witness :
  vis_label (Some ["a"; "b"]%string) None default_ignore_color 1 None (world0 [[]; []]) =
  (Raise ValueError_zero_size_max, world0 [[]; []]).
Proof.
  apply (X1_empty_label_raises (Some ["a"; "b"]%string) None default_ignore_color 1
           None (world0 [[]; []])).
  reflexivity.
Defined.

(** X2.  No call ends in either of the two ValueErrors that lines 72 and
    74 build.  On a label array that has an element, lines 71-74 complete
    normally and change nothing, whatever [colors] and the number of
    classes are. *)
Theorem X2_validation_errors_never_leave_the_call (label_names : option (list string))
    (colors : option (list rgb)) (ignore_color : list Z) (alpha : Q)
    (ax : option nat) (w : World) :
  fst (vis_label label_names colors ignore_color alpha ax w) <>
    Raise ValueError_colors_size /\
  fst (vis_label label_names colors ignore_color alpha ax w) <>
    Raise ValueError_label_exceeds /\
  (forall (n_class : integer) (m : Z),
     ndarray_max (label_array w) = Ok m ->
     check_arguments (label_array w) colors n_class w = (Ok tt, w)).
Proof.
  split; [|split].
  - intros H. apply vis_label_raises_only in H.
    destruct H as [H|[H|H]]; discriminate.
  - intros H. apply vis_label_raises_only in H.
    destruct H as [H|[H|H]]; discriminate.
  - intros n_class m Hm.
    pose proof (check_arguments_pure (label_array w) colors n_class w) as Hw.
    pose proof (check_arguments_result (label_array w) colors n_class w) as Hr.
    rewrite Hm in Hr.
    destruct (check_arguments _ _ _ w) as [r0 w1]. simpl in Hw, Hr.
    now subst r0 w1.
Qed.

(** X3.  Whatever a call does, returning or raising, it leaves the label
    array and the default colormap as they were.  Given [ax], it creates
    no figure and no axes, and changes no axes but [ax]; without [ax], it
    creates at most one figure and changes none of the axes that
    existed. *)
Theorem X3_call_touches_only_its_axes (label_names : option (list string))
    (colors : option (list rgb)) (ignore_color : list Z) (alpha : Q)
    (ax : option nat) (w : World) :
  let w' := snd (vis_label label_names colors ignore_color alpha ax w) in
  label_array w' = label_array w /\
  rc_cmap w' = rc_cmap w /\
  match ax with
  | Some a =>
      figures w' = figures w /\
      length (surfaces w') = length (surfaces w) /\
      forall b, b <> a -> surfaces w' !! b = surfaces w !! b
  | None =>
      (figures w' <= S (figures w))%nat /\
      forall b, (b < length (surfaces w))%nat -> surfaces w' !! b = surfaces w !! b
  end.
Proof. apply vis_label_frame. Qed.

(** X4.  A call that returns has shown exactly one image: on the given
    axes, which it returns, creating no figure; or, without [ax], on one
    new axes of one new figure, whose handle it returns.  In that image
    every pixel whose label is not negative has the palette colour at
    [label / (n_class - 1)]. *)
Theorem X4_returning_call_shows_one_image (label_names : option (list string))
    (colors : option (list rgb)) (ignore_color : list Z) (alpha : Q)
    (ax : option nat) (w w' : World) (ax' : nat) (legend : list Patch) :
  vis_label label_names colors ignore_color alpha ax w = (Ok (ax', legend), w') ->
  exists n_class cmap img,
    n_class_of (label_array w) label_names colors = Ok n_class /\
    resolve_cmap colors w = (Ok cmap, w) /\
    match ax with
    | Some a =>
        ax' = a /\ figures w' = figures w /\
        surfaces w' = alter (fun shown => shown ++ [img]) a (surfaces w)
    | None =>
        ax' = length (surfaces w) /\ figures w' = S (figures w) /\
        surfaces w' = surfaces w ++ [[img]]
    end /\
    forall i j v,
      pixel (label_array w) i j = Some v -> 0 <= v ->
      pixel img i j = Some (cmap (np_true_divide v (int_value n_class - 1))).
Proof.
  intros H. apply vis_label_ok in H.
  destruct H as (n_class & names & cmap & img & Hn & _ & Hc & Hp & Hs & _).
  exists n_class, cmap, img. split; [exact Hn|]. split; [exact Hc|]. split.
  - pose proof (show_frame ax img w) as Hf. rewrite Hs in Hf. simpl in Hf.
    destruct Hf as (_ & _ & Hf).
    destruct ax as [a|]; destruct Hf as (Ha & Hfig & Hsurf);
      (split; [congruence|]); split; assumption.
  - intros i j v Hv Hpos.
    eapply paint_ignored_keeps; eauto. now apply base_image_pixel.
Qed.

Lemma X4_returning_call_shows_one_image_witness :
  exists n_class cmap img,
    n_class_of [[0; 1]; [-1; 1]] (Some ["bg"; "fg"]%string) None = Ok n_class /\
    resolve_cmap None (world0 [[0; 1]; [-1; 1]]) = (Ok cmap, world0 [[0; 1]; [-1; 1]]) /\
    surfaces (snd (vis_label (Some ["bg"; "fg"]%string) None [10; 20; 30; 255] 1
                             (Some 0%nat) (world0 [[0; 1]; [-1; 1]]))) = [[img]].
Proof.
  destruct (X4_returning_call_shows_one_image (Some ["bg"; "fg"]%string) None
              [10; 20; 30; 255] 1 (Some 0%nat) (world0 [[0; 1]; [-1; 1]])
              (snd (vis_label (Some ["bg"; "fg"]%string) None [10; 20; 30; 255] 1
                              (Some 0%nat) (world0 [[0; 1]; [-1; 1]])))
              0%nat
              [mkPatch (gray (Fin (inject_Z 0 / inject_Z 1)%Q)) "bg"%string;
               mkPatch (gray (Fin (inject_Z 1 / inject_Z 1)%Q)) "fg"%string])
    as (n_class & cmap & img & Hn & Hc & (_ & _ & Hs) & _);
    [reflexivity|].
  exists n_class, cmap, img. split; [exact Hn|]. split; [exact Hc|]. exact Hs.
Defined.

(** X5.  When the label array has a negative (ignored) element and
    [ignore_color] has three components, as documented, every call raises
    numpy's broadcast ValueError at line 90 and leaves the world as it
    was. *)
Theorem X5_ignored_pixel_with_rgb_color_raises (label_names : option (list string))
    (colors : option (list rgb)) (r g b : Z) (alpha : Q) (ax : option nat)
    (w : World) (i j : nat) (v : Z) :
  pixel (label_array w) i j = Some v ->
  v < 0 ->
  vis_label label_names colors [r; g; b] alpha ax w =
  (Raise ValueError_shape_mismatch, w).
Proof.
  intros Hv _. destruct (ndarray_max_nonempty _ _ _ _ Hv) as [m Hm].
  now apply (vis_label_rgb_raises label_names colors r g b alpha ax w m).
Qed.

Lemma X5_ignored_pixel_with_rgb_color_raises_witness :
  vis_label None None default_ignore_color 1 None (world0 [[0; 1]; [-1; 1]]) =
  (Raise ValueError_shape_mismatch, world0 [[0; 1]; [-1; 1]]).
Proof.
  apply (X5_ignored_pixel_with_rgb_color_raises None None 0 0 0 1 None
           (world0 [[0; 1]; [-1; 1]]) 1%nat 0%nat (-1));
    [reflexivity | lia].
Defined.

(** X6.  With neither [label_names] nor [colors], the number of classes
    is [label.max()], a numpy integer, while the legend gets one entry per
    value of 0 .. [label.max()]: for a non-negative maximum, one entry
    more than there are classes.  The legend loop does not raise then. *)
Theorem X6_default_class_count_is_one_short (cmap : colormap) (label : grid) (m : Z) :
  ndarray_max label = Ok m ->
  n_class_of label None None = Ok (NpInt m) /\
  exists legend,
    legend_of cmap label None None = Ok legend /\
    Z.of_nat (length legend) = Z.max 0 (m + 1).
Proof.
  intros Hm. unfold legend_of, n_class_of, resolve_names. rewrite Hm.
  split; [reflexivity|].
  rewrite build_legend_spec by discriminate. eexists. split; [reflexivity|].
  rewrite length_imap, length_map. unfold range. rewrite length_seq. lia.
Qed.

Lemma X6_default_class_count_is_one_short_witness :
  n_class_of [[0; 2]; [1; 0]] None None = Ok (NpInt 2) /\
  exists legend,
    legend_of gray [[0; 2]; [1; 0]] None None = Ok legend /\
    Z.of_nat (length legend) = Z.max 0 (2 + 1).
Proof.
  apply (X6_default_class_count_is_one_short gray [[0; 2]; [1; 0]] 2).
  reflexivity.
Defined.

(** X7.  The names synthesized when [label_names] is absent are exactly
    the decimal strings of 0 .. [label.max()], in order: [label.max() + 1]
    of them, none for a negative maximum, and no two of them equal. *)
Theorem X7_synthesized_names_are_distinct (label : grid) (m : Z) :
  ndarray_max label = Ok m ->
  exists names,
    resolve_names label None = Ok names /\
    names = map (fun l : nat => pretty l) (seq 0 (Z.to_nat (m + 1))) /\
    Z.of_nat (length names) = Z.max 0 (m + 1) /\
    NoDup names /\
    forall l : nat, Z.of_nat l <= m -> names !! l = Some (pretty l).
Proof.
  intros Hm. unfold resolve_names. rewrite Hm. eexists. split; [reflexivity|].
  split; [reflexivity|]. split; [|split].
  - rewrite length_map. unfold range. rewrite length_seq. lia.
  - apply (NoDup_fmap_2 (A := nat) str). apply NoDup_seq.
  - intros l Hl. rewrite list_lookup_fmap. unfold range.
    rewrite lookup_seq_lt by lia. reflexivity.
Qed.

Lemma X7_synthesized_names_are_distinct_witness :
  exists names,
    resolve_names [[0; 2]; [1; 0]] None = Ok names /\
    names = map (fun l : nat => pretty l) (seq 0 (Z.to_nat (2 + 1))) /\
    Z.of_nat (length names) = Z.max 0 (2 + 1) /\
    NoDup names /\
    forall l : nat, Z.of_nat l <= 2 -> names !! l = Some (pretty l).
Proof.
  apply (X7_synthesized_names_are_distinct [[0; 2]; [1; 0]] 2). reflexivity.
Defined.

(** X8.  The legend loop raises exactly when the number of classes is the
    Python int 1 and there is at least one name, and then
    ZeroDivisionError; in every other case it gives one entry per name,
    carrying the names in order. *)
Theorem X8_legend_loop_raises_iff_one_class (cmap : colormap) (n_class : integer)
    (names : list string) :
  (build_legend cmap n_class names = Raise ZeroDivisionError <->
   n_class = PyInt 1 /\ names <> []) /\
  (forall e, build_legend cmap n_class names = Raise e -> e = ZeroDivisionError) /\
  (forall legend, build_legend cmap n_class names = Ok legend ->
                  map patch_label legend = names).
Proof.
  assert (Hdec : n_class = PyInt 1 \/ n_class <> PyInt 1).
  { destruct n_class as [z|z]; [|right; discriminate].
    destruct (Z.eq_dec z 1) as [->|Hz]; [now left|right; congruence]. }
  split; [|split].
  - split.
    + intros Hr. destruct Hdec as [->|Hne].
      * split; [reflexivity|]. intros ->. discriminate.
      * rewrite build_legend_spec in Hr by assumption. discriminate.
    + intros [-> Hne]. destruct names as [|name rest]; [congruence|].
      apply build_legend_one_class.
  - intros e. apply (legend_loop_raises cmap n_class names 0 []).
  - intros legend Hl. destruct Hdec as [->|Hne].
    + destruct names as [|name rest].
      * injection Hl as <-. reflexivity.
      * rewrite build_legend_one_class in Hl. discriminate.
    + rewrite build_legend_spec in Hl by assumption. injection Hl as <-.
      apply list_eq. intros i. rewrite list_lookup_fmap, list_lookup_imap.
      now destruct (names !! i).
Qed.

(** X9.  Lines 83 and 89 map [0, 255] to [0, 1]: a colour component
    between 0 and 255 is normalized to a value between 0 and 1, 0 to 0
    and 255 to 1. *)
Theorem X9_normalized_components_are_in_the_unit_interval (r g b : Z) :
  0 <= r <= 255 -> 0 <= g <= 255 -> 0 <= b <= 255 ->
  let '(r', g', b') := normalize_color (r, g, b) in
  (0 <= r' <= 1 /\ 0 <= g' <= 1 /\ 0 <= b' <= 1)%Q /\
  normalize_array [r; g; b] = [r'; g'; b'] /\
  (div255 0 == 0 /\ div255 255 == 1)%Q.
Proof.
  intros Hr Hg Hb. simpl.
  assert (Hc : forall c, 0 <= c <= 255 -> (0 <= div255 c <= 1)%Q).
  { intros c Hc. unfold div255, Qdiv, Qmult, Qinv, Qle. simpl. lia. }
  repeat split; try apply Hc; auto.
Qed.

Lemma X9_normalized_components_are_in_the_unit_interval_witness :
  let '(r', g', b') := normalize_color (10, 20, 30) in
  (0 <= r' <= 1 /\ 0 <= g' <= 1 /\ 0 <= b' <= 1)%Q /\
  normalize_array [10; 20; 30] = [r'; g'; b'] /\
  (div255 0 == 0 /\ div255 255 == 1)%Q.
Proof.
  apply (X9_normalized_components_are_in_the_unit_interval 10 20 30); lia.
Defined.

(** X10.  With at least two classes, a label value between 0 and
    [n_class - 1] is normalized by line 86 to a finite index between 0
    and 1: 0 for the value 0 and 1 for the value [n_class - 1]. *)
Theorem X10_normalized_index_is_in_the_unit_interval (v : Z) (n_class : integer) :
  2 <= int_value n_class ->
  0 <= v <= int_value n_class - 1 ->
  exists q,
    np_true_divide v (int_value (int_pred n_class)) = Fin q /\
    (0 <= q <= 1)%Q /\
    (v = 0 -> (q == 0)%Q) /\
    (v = int_value n_class - 1 -> (q == 1)%Q).
Proof.
  intros Hn Hv. rewrite int_value_pred. unfold np_true_divide.
  destruct (Z.eqb_spec (int_value n_class - 1) 0) as [?|_]; [lia|].
  eexists. split; [reflexivity|].
  destruct (int_value n_class - 1) as [|p|p] eqn:Hp; try lia.
  unfold Qdiv, Qmult, Qinv, Qle, Qeq. simpl.
  repeat split; try lia; intros ->; lia.
Qed.

Lemma X10_normalized_index_is_in_the_unit_interval_witness :
  exists q,
    np_true_divide 1 (int_value (int_pred (PyInt 3))) = Fin q /\
    (0 <= q <= 1)%Q /\
    (1 = 0 -> (q == 0)%Q) /\
    (1 = int_value (PyInt 3) - 1 -> (q == 1)%Q).
Proof.
  apply (X10_normalized_index_is_in_the_unit_interval 1 (PyInt 3)); simpl; lia.
Defined.

(** X11.  When [colors] holds at least two triples and that many classes
    are counted, a pixel whose label [v] is between 0 and [n_class - 1]
    gets in line 86 the [v]-th supplied colour divided by 255, with alpha
    1: the colour of the [v]-th legend entry. *)
Theorem X11_pixel_has_the_color_of_its_class (label : grid)
    (label_names : option (list string)) (colors : list rgb) (n_class : integer)
    (i j : nat) (v : Z) (c : rgb) :
  n_class_of label label_names (Some colors) = Ok n_class ->
  int_value n_class = Z.of_nat (length colors) ->
  (2 <= length colors)%nat ->
  pixel label i j = Some v ->
  0 <= v ->
  colors !! Z.to_nat v = Some c ->
  pixel (base_image (ListedColormap (map normalize_color colors)) label n_class) i j =
  Some (lut_entry (normalize_color c)).
Proof.
  intros _ Hn H2 Hv Hpos Hc.
  rewrite (base_image_pixel _ label n_class i j v Hv). f_equal.
  assert (Hlt : (Z.to_nat v < length colors)%nat) by (eapply lookup_lt_Some; eauto).
  pose proof (ListedColormap_at (map normalize_color colors) (Z.to_nat v)) as Hat.
  rewrite length_map, Z2Nat.id in Hat by lia. rewrite Hn, Hat by lia. f_equal.
  apply nth_lookup_Some with (d := (0%Q, 0%Q, 0%Q)).
  now rewrite list_lookup_fmap, Hc.
Qed.

Lemma X11_pixel_has_the_color_of_its_class_witness :
  pixel (base_image (ListedColormap (map normalize_color red_green_blue))
                    [[0; 1]; [2; 1]] (PyInt 3)) 1 0 =
  Some (lut_entry (normalize_color (0, 0, 255))).
Proof.
  apply (X11_pixel_has_the_color_of_its_class [[0; 1]; [2; 1]] None red_green_blue
           (PyInt 3) 1%nat 0%nat 2 (0, 0, 255));
    [reflexivity | reflexivity | simpl; lia | reflexivity | lia | reflexivity].
Defined.

Lemma write_where_shape (img : image) (mask : list (list bool)) (c : rgba) :
  map length mask = map length img ->
  map length (write_where img mask c) = map length img.
Proof.
  unfold write_where. revert mask.
  induction img as [|row rows IH]; intros [|mrow mrows]; simpl;
    try discriminate; [reflexivity|].
  intros Hm. injection Hm as Hrow Hrows. f_equal; [|now apply IH].
  rewrite length_zip_with. lia.
Qed.

(** X12.  The image has the shape of the label array: as many rows, and
    in each row as many pixels, after line 86 and, when the assignment of
    line 90 succeeds, after it. *)
Theorem X12_image_has_the_shape_of_the_label (cmap : colormap) (label : grid)
    (n_class : integer) (ignore_color : list Z) (img : image) :
  paint_ignored (base_image cmap label n_class) label ignore_color = Ok img ->
  map length (base_image cmap label n_class) = map length label /\
  map length img = map length label.
Proof.
  assert (Hb : map length (base_image cmap label n_class) = map length label).
  { unfold base_image, cmap_array, ndarray_div. rewrite !map_map.
    apply map_ext. intros row. now rewrite !length_map. }
  assert (Hm : map length (ndarray_lt0 label) = map length label).
  { unfold ndarray_lt0. rewrite map_map. apply map_ext.
    intros row. now rewrite length_map. }
  intros Hp. split; [exact Hb|].
  unfold paint_ignored, setitem_mask in Hp.
  destruct (normalize_array ignore_color) as [|? [|? [|? [|? [|? ?]]]]];
    try discriminate; injection Hp as <-;
    rewrite write_where_shape; congruence.
Qed.

Lemma X12_image_has_the_shape_of_the_label_witness :
  map length (base_image gray [[0; 1]; [-1; 1]] (PyInt 2)) =
    map length [[0; 1]; [-1; 1]] /\
  map length (write_where (base_image gray [[0; 1]; [-1; 1]] (PyInt 2))
                          (ndarray_lt0 [[0; 1]; [-1; 1]])
                          (div255 10, div255 20, div255 30, div255 255)) =
    map length [[0; 1]; [-1; 1]].
Proof.
  apply (X12_image_has_the_shape_of_the_label gray [[0; 1]; [-1; 1]] (PyInt 2)
           [10; 20; 30; 255]).
  reflexivity.
Defined.

(** X13.  A call that ends in a ValueError has changed nothing: both
    come before the drawing.  A call that ends in ZeroDivisionError has
    already shown the image, on the given axes or on a new one: the
    legend loop runs after the drawing. *)
Theorem X13_only_zero_division_leaves_a_drawing (label_names : option (list string))
    (colors : option (list rgb)) (ignore_color : list Z) (alpha : Q)
    (ax : option nat) (w : World) (e : exn) :
  fst (vis_label label_names colors ignore_color alpha ax w) = Raise e ->
  (e <> ZeroDivisionError ->
   snd (vis_label label_names colors ignore_color alpha ax w) = w) /\
  (e = ZeroDivisionError ->
   exists img,
     surfaces (snd (vis_label label_names colors ignore_color alpha ax w)) =
     match ax with
     | Some a => alter (fun shown => shown ++ [img]) a (surfaces w)
     | None => surfaces w ++ [[img]]
     end).
Proof.
  unfold vis_label, bind, lift. simpl.
  destruct (n_class_of _ _ _) as [n_class|e0] eqn:Hn.
  2: { simpl. intros H. injection H as <-. split; [reflexivity|].
       intros ->. unfold n_class_of in Hn.
       destruct label_names, colors; try discriminate.
       destruct (ndarray_max (label_array w)) eqn:Hm; [discriminate|].
       injection Hn as ->. apply ndarray_max_raises in Hm. discriminate. }
  pose proof (check_arguments_pure (label_array w) colors n_class w) as Hw.
  pose proof (check_arguments_result (label_array w) colors n_class w) as Hr.
  destruct (check_arguments _ _ _ w) as [r0 w1]. simpl in Hw, Hr. subst r0 w1.
  destruct (ndarray_max (label_array w)) as [m|e0] eqn:Hm.
  2: { simpl. intros H. injection H as <-. split; [reflexivity|].
       intros ->. apply ndarray_max_raises in Hm. discriminate. }
  assert (Hnames : exists ns, resolve_names (label_array w) label_names = Ok ns).
  { unfold resolve_names. rewrite Hm. destruct label_names; eexists; reflexivity. }
  destruct Hnames as [names ->].
  destruct (resolve_cmap_pure colors w) as [cmap ->].
  destruct (paint_ignored _ _ _) as [img|e0] eqn:Hp.
  2: { simpl. intros H. injection H as <-. split; [reflexivity|].
       intros ->. unfold paint_ignored, setitem_mask in Hp.
       destruct (normalize_array ignore_color) as [|? [|? [|? [|? [|? ?]]]]];
         discriminate. }
  destruct (show_frame ax img w) as (_ & _ & Hs).
  destruct (show ax img w) as [r w2]. simpl in Hs.
  assert (Hr : exists a, r = Ok a) by (destruct ax; destruct Hs as [-> _]; eauto).
  destruct Hr as [a ->].
  destruct (build_legend cmap n_class names) as [lg|e0] eqn:Hl; [discriminate|].
  simpl. intros H. injection H as <-.
  apply (legend_loop_raises cmap n_class names 0 []) in Hl. subst e0.
  split; [congruence|]. intros _. exists img.
  destruct ax; destruct Hs as (_ & _ & Hs); exact Hs.
Qed.

Lemma X13_only_zero_division_leaves_a_drawing_witness :
  exists img,
    surfaces (snd (vis_label (Some ["a"]%string) None [0; 0; 0; 255] 1 (Some 0%nat)
                             (world0 [[0; -1]]))) =
    alter (fun shown => shown ++ [img]) 0%nat (surfaces (world0 [[0; -1]])).
Proof.
  destruct (X13_only_zero_division_leaves_a_drawing (Some ["a"]%string) None
              [0; 0; 0; 255] 1 (Some 0%nat) (world0 [[0; -1]]) ZeroDivisionError)
    as [_ Hd]; [reflexivity|].
  apply Hd. reflexivity.
Defined.
